(** * spotizerr-auth: a model of the interactive registration utility

    The program is one Python script, [spotizerr-auth.py].  It talks to a
    terminal, to an HTTP server, to one file on disk and to a Spotify Connect
    responder.  All four are modelled as a scripted environment ([world]);
    the three functions of the script are written in a small monad that
    threads the environment, raises Python exceptions and records every
    observable action in a trace.

    What the model takes from the libraries the script calls:
    - [requests]: a call ends in a response, in a [RequestException]
      without response, or is interrupted; [raise_for_status] raises for
      400 <= status < 600; [response.json()] raises the library's own
      [JSONDecodeError], which is both a [RequestException] and a
      [json.JSONDecodeError].  The constant Content-Type header is left out.
    - [json]: decoding is the environment's ([body_json], [f_json]); numbers
      are integers.
    - the terminal: [input()] returns a line, is interrupted by Ctrl-C, or
      hits the end of input ([EOFError]).
    - the responder: creating and closing it succeeds; Ctrl-C arrives while
      a call blocks ([input], a request, [time.sleep]). *)

From Stdlib Require Import String Ascii List ZArith Bool Lia.
Import ListNotations.
Local Open Scope string_scope.
Local Open Scope Z_scope.
Local Open Scope list_scope.

(** ** Python strings (ASCII text) *)

Module Py.

Definition upper_ascii (c : ascii) : ascii :=
  let n := nat_of_ascii c in
  if (Nat.leb 97 n && Nat.leb n 122)%bool then ascii_of_nat (n - 32) else c.

Definition lower_ascii (c : ascii) : ascii :=
  let n := nat_of_ascii c in
  if (Nat.leb 65 n && Nat.leb n 90)%bool then ascii_of_nat (n + 32) else c.

Fixpoint map_str (f : ascii -> ascii) (s : string) : string :=
  match s with
  | EmptyString => EmptyString
  | String c r => String (f c) (map_str f r)
  end.

(** [str.upper()] and [str.lower()] on ASCII text. *)
Definition upper : string -> string := map_str upper_ascii.
Definition lower : string -> string := map_str lower_ascii.

(** [s.rstrip('/')]: drop every trailing slash. *)
Fixpoint rstrip_slash (s : string) : string :=
  match s with
  | EmptyString => EmptyString
  | String c r =>
      match rstrip_slash r with
      | EmptyString => if Ascii.eqb c "/" then EmptyString else String c EmptyString
      | r' => String c r'
      end
  end.

(** [s.startswith((p1, p2))] is [startswith p1 s || startswith p2 s]. *)
Definition startswith (p s : string) : bool := String.prefix p s.

(** Truth value of a [str]: [not s] is [negb (truthy_str s)]. *)
Definition truthy_str (s : string) : bool :=
  match s with EmptyString => false | _ => true end.

End Py.

(** ** JSON values, as [json.loads] / [response.json()] return them *)

#[warnings="-register-all"]
Inductive json : Type :=
| JNull
| JBool (b : bool)
| JNum (n : Z)
| JStr (s : string)
| JArr (items : list json)
| JObj (fields : list (string * json)).

Module Json.

(** Python truth value of a decoded JSON value. *)
Definition truthy (j : json) : bool :=
  match j with
  | JNull => false
  | JBool b => b
  | JNum n => negb (n =? 0)
  | JStr s => Py.truthy_str s
  | JArr l => match l with [] => false | _ => true end
  | JObj l => match l with [] => false | _ => true end
  end.

Fixpoint assoc (k : string) (l : list (string * json)) : option json :=
  match l with
  | [] => None
  | (k', v) :: r => if String.eqb k k' then Some v else assoc k r
  end.

(** [data.get(k)]: the value, [None] (here [JNull]) when the key is
    missing; a decoded value that is not a dict has no [get]. *)
Definition get (data : json) (k : string) : option json :=
  match data with
  | JObj l => Some (match assoc k l with Some v => v | None => JNull end)
  | _ => None
  end.

End Json.

(** ** The [requests] library's responses and Python's exceptions *)

Record response : Type := mkResponse {
  status_code : Z;
  text : string;
  body_json : option json   (* what [.json()] decodes [text] to, if it parses *)
}.

Inductive exc : Type :=
| KeyboardInterrupt
| SystemExit (code : Z)
| EOFError
| AttributeError
| HTTPError (r : response)       (* raised by [raise_for_status] *)
| ConnectionError                (* transport failure or timeout: no response *)
| RequestsJSONDecodeError        (* [requests.exceptions.JSONDecodeError] *)
| JSONDecodeError                (* [json.JSONDecodeError] from [json.load] *)
| FileNotFoundError
| OSError.

(** The parts of the class hierarchy the [except] clauses test. *)
Definition is_RequestException (e : exc) : bool :=
  match e with
  | HTTPError _ | ConnectionError | RequestsJSONDecodeError => true
  | _ => false
  end.

Definition is_JSONDecodeError (e : exc) : bool :=
  match e with
  | JSONDecodeError | RequestsJSONDecodeError => true
  | _ => false
  end.

(** [RequestException] derives from [IOError], an alias of [OSError]. *)
Definition is_OSError (e : exc) : bool :=
  match e with
  | OSError | FileNotFoundError => true
  | _ => is_RequestException e
  end.

Definition is_KeyboardInterrupt (e : exc) : bool :=
  match e with KeyboardInterrupt => true | _ => false end.

(** [e.response] of a [RequestException]. *)
Definition exc_response (e : exc) : option response :=
  match e with HTTPError r => Some r | _ => None end.

(** [Response.raise_for_status] raises exactly for 4xx and 5xx. *)
Definition http_error_status (s : Z) : bool := (400 <=? s) && (s <? 600).

(** ** The environment *)

(** One answer of the terminal to [input()]. *)
Inductive keys : Type :=
| Line (s : string)
| CtrlC.

(** One answer of the network to a request. *)
Inductive http_reply : Type :=
| Reply (r : response)
| Unreachable       (* a [RequestException] without response *)
| Cancelled.        (* Ctrl-C while the call blocks *)

(** The credential file: its text and what [json.load] makes of it. *)
Record file : Type := mkFile {
  f_text : string;
  f_json : option json
}.

(** One second of the wait loop: what happens during [time.sleep(1)]. *)
Inductive capture_step : Type :=
| CsIdle                  (* nothing *)
| CsWrite (f : file)      (* the capture library stores the session *)
| CsInterrupt.            (* Ctrl-C *)

Record world : Type := mkWorld {
  stdin : list keys;              (* exhausted: end of input *)
  http : list http_reply;         (* exhausted: server unreachable *)
  cred_file : option file;        (* [credentials.json] *)
  unlink_denied : bool;           (* [unlink] fails with an OS error *)
  zs_name : option string;        (* the responder's private [name] *)
  zs_session : option (option string);
     (* the responder's private session, and its [username()] if that
        call does not fail *)
  capture : list capture_step     (* exhausted: nobody ever connects *)
}.

Definition set_stdin (l : list keys) (w : world) : world :=
  mkWorld l (http w) (cred_file w) (unlink_denied w) (zs_name w) (zs_session w) (capture w).
Definition set_http (l : list http_reply) (w : world) : world :=
  mkWorld (stdin w) l (cred_file w) (unlink_denied w) (zs_name w) (zs_session w) (capture w).
Definition set_cred_file (f : option file) (w : world) : world :=
  mkWorld (stdin w) (http w) f (unlink_denied w) (zs_name w) (zs_session w) (capture w).

(** ** Observable actions *)

Inductive prompt : Type :=
| PBaseUrl | PConfigureNow | PClientId | PClientSecret
| PAccountName | PRegion | POverwrite | PCleanup.

Inductive http_method : Type := GET | PUT | POST.

Inductive level : Type := INFO | WARNING | ERROR.

(** One constructor per logging call of the script, in source order. *)
Inductive log_msg : Type :=
| LRemovingExisting
| LCouldNotRemove
| LDeviceAvailable (device_name : string)
| LPleaseOpenSpotify
| LWillCapture
| LCredentialsCreated
| LSessionCaptured (username : string)
| LShuttingDown
| LChecking
| LAlreadyConfigured
| LMissingApiCreds
| LDashboardHint
| LPleaseConfigure
| LBothMustBeProvided
| LConfigured
| LFailedToCommunicate (url : string) (e : exc)
| LResponseStatus (s : Z)
| LResponseBodyJson (j : json)
| LResponseBodyText (s : string)
| LEnsureRunning
| LUsingDefaultUrl (url : string)
| LAccountNameEmpty
| LRegionEmpty
| LUsingExisting
| LFailedToObtain
| LCouldNotReadOrParse (e : exc)
| LRegistering (account_name url : string)
| LRegistered
| LResponseFromServer (s : string)
| LFailedToCall (e : exc)
| LCredentialsDeleted
| LErrorDeleting
| LNotDeleted
| LCancelled.

Inductive event : Type :=
| EvInput (p : prompt) (k : option keys)     (* [None]: end of input *)
| EvHttp (m : http_method) (url : string) (body : option json) (timeout : option Z)
| EvOpen                                     (* [open(cred_file, "r")] *)
| EvUnlink (ok : bool)
| EvZsCreate
| EvZsClose
| EvSleep
| EvLog (l : level) (m : log_msg).

(** ** The monad: environment, exceptions, trace *)

Inductive result (A : Type) : Type :=
| Ret (a : A)
| Raise (e : exc)
| Hang.
Arguments Ret {A} a.
Arguments Raise {A} e.
Arguments Hang {A}.

Definition M (A : Type) : Type := world -> result A * world * list event.

Definition ret {A} (a : A) : M A := fun w => (Ret a, w, []).

Definition bind {A B} (m : M A) (f : A -> M B) : M B :=
  fun w =>
    match m w with
    | (Ret a, w1, t1) => let '(r, w2, t2) := f a w1 in (r, w2, t1 ++ t2)
    | (Raise e, w1, t1) => (Raise e, w1, t1)
    | (Hang, w1, t1) => (Hang, w1, t1)
    end.

Definition raise {A} (e : exc) : M A := fun w => (Raise e, w, []).
Definition hang {A} : M A := fun w => (Hang, w, []).
Definition emit (e : event) : M unit := fun w => (Ret tt, w, [e]).

Declare Scope py_scope.
Delimit Scope py_scope with py.
Notation "x <- m ;; k" := (bind m (fun x => k))
  (at level 61, m at next level, right associativity) : py_scope.
Notation "m ;; k" := (bind m (fun _ => k))
  (at level 61, right associativity) : py_scope.
Local Open Scope py_scope.

(** [try: body  except <handles>: handler e]. *)
Definition try_except {A} (body : M A) (handles : exc -> bool) (handler : exc -> M A) : M A :=
  fun w =>
    match body w with
    | (Raise e, w1, t1) =>
        if handles e
        then let '(r, w2, t2) := handler e w1 in (r, w2, t1 ++ t2)
        else (Raise e, w1, t1)
    | other => other
    end.

(** [try: body  finally: fin]; an exception of [fin] replaces the pending
    result. *)
Definition try_finally {A} (body : M A) (fin : M unit) : M A :=
  fun w =>
    match body w with
    | (Hang, w1, t1) => (Hang, w1, t1)
    | (r, w1, t1) =>
        match fin w1 with
        | (Ret _, w2, t2) => (r, w2, t1 ++ t2)
        | (Raise e, w2, t2) => (Raise e, w2, t1 ++ t2)
        | (Hang, w2, t2) => (Hang, w2, t1 ++ t2)
        end
    end.

(** ** Primitives *)

Definition log (l : level) (m : log_msg) : M unit := emit (EvLog l m).

Definition sys_exit {A} (code : Z) : M A := raise (SystemExit code).

(** [input(prompt)]. *)
Definition input (p : prompt) : M string :=
  fun w =>
    match stdin w with
    | [] => (Raise EOFError, w, [EvInput p None])
    | Line s :: rest => (Ret s, set_stdin rest w, [EvInput p (Some (Line s))])
    | CtrlC :: rest => (Raise KeyboardInterrupt, set_stdin rest w, [EvInput p (Some CtrlC)])
    end.

(** [requests.get], [requests.put], [requests.post]. *)
Definition request (m : http_method) (url : string) (body : option json)
    (timeout : option Z) : M response :=
  fun w =>
    let ev := [EvHttp m url body timeout] in
    match http w with
    | [] => (Raise ConnectionError, w, ev)
    | Reply r :: rest => (Ret r, set_http rest w, ev)
    | Unreachable :: rest => (Raise ConnectionError, set_http rest w, ev)
    | Cancelled :: rest => (Raise KeyboardInterrupt, set_http rest w, ev)
    end.

Definition raise_for_status (r : response) : M unit :=
  if http_error_status (status_code r) then raise (HTTPError r) else ret tt.

(** [response.json()]. *)
Definition response_json (r : response) : M json :=
  match body_json r with
  | Some j => ret j
  | None => raise RequestsJSONDecodeError
  end.

(** [data.get(k)]. *)
Definition dict_get (data : json) (k : string) : M json :=
  match Json.get data k with
  | Some v => ret v
  | None => raise AttributeError
  end.

(** [cred_file.exists()]. *)
Definition path_exists : M bool :=
  fun w => (Ret (match cred_file w with Some _ => true | None => false end), w, []).

(** [cred_file.unlink()]. *)
Definition path_unlink : M unit :=
  fun w =>
    match cred_file w with
    | None => (Raise FileNotFoundError, w, [EvUnlink false])
    | Some _ =>
        if unlink_denied w then (Raise OSError, w, [EvUnlink false])
        else (Ret tt, set_cred_file None w, [EvUnlink true])
    end.

(** [credential_file.is_file() and credential_file.stat().st_size > 0]. *)
Definition path_is_nonempty_file : M bool :=
  fun w =>
    (Ret (match cred_file w with
          | Some f => Py.truthy_str (f_text f)
          | None => false
          end), w, []).

(** [with open(cred_file, "r") as f: json.load(f)]. *)
Definition load_json_file : M json :=
  fun w =>
    match cred_file w with
    | None => (Raise FileNotFoundError, w, [EvOpen])
    | Some f =>
        match f_json f with
        | Some j => (Ret j, w, [EvOpen])
        | None => (Raise JSONDecodeError, w, [EvOpen])
        end
    end.

(** [time.sleep(1)], during which the environment does [step]. *)
Definition sleep (step : capture_step) : M unit :=
  fun w =>
    match step with
    | CsIdle => (Ret tt, w, [EvSleep])
    | CsWrite f => (Ret tt, set_cred_file (Some f) w, [EvSleep])
    | CsInterrupt => (Raise KeyboardInterrupt, w, [EvSleep])
    end.

(** ** The script *)

(** [zs._ZeroconfServer__server.name] when both private attributes exist. *)
Definition zs_device_name : M string :=
  fun w =>
    (Ret (match zs_name w with
          | Some n => n
          | None => "librespot-spotizerr"
          end), w, []).

(** Lines 55-60: the user name is logged when the session can tell it. *)
Definition log_session_username : M unit :=
  fun w =>
    match zs_session w with
    | Some (Some username) => log INFO (LSessionCaptured username) w
    | _ => (Ret tt, w, [])
    end.

(** Lines 51-61, [while True]: one iteration per second of the
    environment's script; with the script exhausted the loop never ends. *)
Fixpoint wait_loop (script : list capture_step) : M unit :=
  match script with
  | [] => hang
  | step :: rest =>
      sleep step ;;
      ready <- path_is_nonempty_file ;;
      if ready : bool then
        log INFO LCredentialsCreated ;;
        log_session_username
      else wait_loop rest
  end.

Definition get_spotify_session_and_wait_for_credentials : M unit :=
  present <- path_exists ;;
  (if present : bool then
     log INFO LRemovingExisting ;;
     try_except path_unlink is_OSError
       (fun _ => log ERROR LCouldNotRemove ;; sys_exit 1)
   else ret tt) ;;
  emit EvZsCreate ;;
  device_name <- zs_device_name ;;
  log INFO (LDeviceAvailable device_name) ;;
  log INFO LPleaseOpenSpotify ;;
  log INFO LWillCapture ;;
  try_finally
    (fun w => wait_loop (capture w) w)
    (log INFO LShuttingDown ;; emit EvZsClose).

Definition api_config_url (base_url : string) : string :=
  (Py.rstrip_slash base_url ++ "/api/credentials/spotify_api_config")%string.

Definition api_config_payload (client_id client_secret : string) : json :=
  JObj [("client_id", JStr client_id); ("client_secret", JStr client_secret)].

Definition check_and_configure_api_creds (base_url : string) : M bool :=
  let url := api_config_url base_url in
  log INFO LChecking ;;
  try_except
    (response <- request GET url None (Some 10) ;;
     (if 400 <=? status_code response then raise_for_status response else ret tt) ;;
     data <- response_json response ;;
     client_id <- dict_get data "client_id" ;;
     client_secret <- dict_get data "client_secret" ;;
     if Json.truthy client_id && Json.truthy client_secret then
       log INFO LAlreadyConfigured ;;
       ret true
     else
       log WARNING LMissingApiCreds ;;
       log WARNING LDashboardHint ;;
       configure_now <- input PConfigureNow ;;
       let configure_now := Py.lower configure_now in
       if negb (configure_now =? "y")%string then
         log INFO LPleaseConfigure ;;
         ret false
       else
         new_client_id <- input PClientId ;;
         new_client_secret <- input PClientSecret ;;
         if negb (Py.truthy_str new_client_id) || negb (Py.truthy_str new_client_secret) then
           log ERROR LBothMustBeProvided ;;
           ret false
         else
           let payload := api_config_payload new_client_id new_client_secret in
           put_response <- request PUT url (Some payload) (Some 10) ;;
           raise_for_status put_response ;;
           log INFO LConfigured ;;
           ret true)
    is_RequestException
    (fun e =>
       log ERROR (LFailedToCommunicate url e) ;;
       match exc_response e with
       | Some r =>
           log ERROR (LResponseStatus (status_code r)) ;;
           try_except
             (j <- response_json r ;; log ERROR (LResponseBodyJson j))
             is_JSONDecodeError
             (fun _ => log ERROR (LResponseBodyText (text r)))
       | None => ret tt
       end ;;
       log ERROR LEnsureRunning ;;
       ret false).

Definition default_base_url : string := "http://localhost:7171".

(** Lines 127-132. *)
Definition normalize_base_url (base_url : string) : string :=
  if Py.startswith "http://" base_url || Py.startswith "https://" base_url
  then base_url else ("http://" ++ base_url)%string.

Definition registration_payload (region : string) (credentials_data : json) : json :=
  JObj [("region", JStr region); ("blob_content", credentials_data)].

Definition registration_url (base_url account_name : string) : string :=
  (Py.rstrip_slash base_url ++ "/api/credentials/spotify/" ++ account_name)%string.

(** Lines 191-200, the [finally] block of the registration. *)
Definition cleanup_prompt : M unit :=
  cleanup <- input PCleanup ;;
  let cleanup := Py.lower cleanup in
  if (cleanup =? "y")%string then
    try_except
      (present <- path_exists ;;
       if present : bool then path_unlink ;; log INFO LCredentialsDeleted else ret tt)
      is_OSError
      (fun _ => log ERROR LErrorDeleting)
  else log INFO LNotDeleted.

(** Lines 168-202. *)
Definition register (base_url account_name region : string) (credentials_data : json) : M unit :=
  let payload := registration_payload region credentials_data in
  let api_url := registration_url base_url account_name in
  log INFO (LRegistering account_name api_url) ;;
  try_finally
    (try_except
       (response <- request POST api_url (Some payload) None ;;
        raise_for_status response ;;
        log INFO LRegistered ;;
        if Py.truthy_str (text response)
        then log INFO (LResponseFromServer (text response)) else ret tt)
       is_RequestException
       (fun e =>
          log ERROR (LFailedToCall e) ;;
          match exc_response e with
          | Some r =>
              log ERROR (LResponseStatus (status_code r)) ;;
              log ERROR (LResponseBodyText (text r))
          | None => ret tt
          end ;;
          sys_exit 1))
    cleanup_prompt ;;
  sys_exit 0.

(** Lines 147-166: obtain and read [credentials.json]. *)
Definition obtain_credentials : M json :=
  present <- path_exists ;;
  (if present : bool then
     overwrite <- input POverwrite ;;
     let overwrite := Py.lower overwrite in
     if (overwrite =? "y")%string then get_spotify_session_and_wait_for_credentials
     else log INFO LUsingExisting
   else get_spotify_session_and_wait_for_credentials) ;;
  present <- path_exists ;;
  (if negb present then log ERROR LFailedToObtain ;; sys_exit 1 else ret tt) ;;
  try_except load_json_file
    (fun e => match e with FileNotFoundError | JSONDecodeError => true | _ => false end)
    (fun e => log ERROR (LCouldNotReadOrParse e) ;; sys_exit 1).

(** Lines 126-202, the body of the outer [try]. *)
Definition main_body : M unit :=
  base_url <- input PBaseUrl ;;
  base_url <- (if negb (Py.truthy_str base_url)
               then log INFO (LUsingDefaultUrl default_base_url) ;; ret default_base_url
               else ret base_url) ;;
  let base_url := normalize_base_url base_url in
  ok <- check_and_configure_api_creds base_url ;;
  (if negb ok then sys_exit 1 else ret tt) ;;
  account_name <- input PAccountName ;;
  (if negb (Py.truthy_str account_name)
   then log ERROR LAccountNameEmpty ;; sys_exit 1 else ret tt) ;;
  region <- input PRegion ;;
  let region := Py.upper region in
  (if negb (Py.truthy_str region)
   then log ERROR LRegionEmpty ;; sys_exit 1 else ret tt) ;;
  credentials_data <- obtain_credentials ;;
  register base_url account_name region credentials_data.

Definition main : M unit :=
  try_except main_body is_KeyboardInterrupt
    (fun _ => log INFO LCancelled ;; sys_exit 0).

(** ** The process *)

Inductive outcome : Type :=
| Exited (code : Z)        (* [sys.exit(code)] *)
| Traceback (e : exc)      (* an exception nobody caught *)
| Blocked.                 (* still waiting *)

(** The exit status the shell sees; an uncaught exception gives 1. *)
Definition exit_status (o : outcome) : option Z :=
  match o with
  | Exited c => Some c
  | Traceback _ => Some 1
  | Blocked => None
  end.

Definition outcome_of (r : result unit) : outcome :=
  match r with
  | Ret _ => Exited 0
  | Raise (SystemExit c) => Exited c
  | Raise e => Traceback e
  | Hang => Blocked
  end.

Definition run_outcome (w : world) : outcome := outcome_of (fst (fst (main w))).
Definition run_trace (w : world) : list event := snd (main w).
Definition run_world (w : world) : world := snd (fst (main w)).

(** ** Reading a run *)

Definition result_of {A} (x : result A * world * list event) : result A := fst (fst x).
Definition world_of {A} (x : result A * world * list event) : world := snd (fst x).
Definition trace_of {A} (x : result A * world * list event) : list event := snd x.

Definition is_http (m : http_method) (e : event) : bool :=
  match e, m with
  | EvHttp GET _ _ _, GET | EvHttp PUT _ _ _, PUT | EvHttp POST _ _ _, POST => true
  | _, _ => false
  end.

Definition is_input (e : event) : bool :=
  match e with EvInput _ _ => true | _ => false end.

Definition is_cleanup_prompt (e : event) : bool :=
  match e with EvInput PCleanup _ => true | _ => false end.



(** Which events each function of the script can produce. *)
Definition boot_msg (m : log_msg) : bool :=
  match m with
  | LChecking | LAlreadyConfigured | LMissingApiCreds | LDashboardHint
  | LPleaseConfigure | LBothMustBeProvided | LConfigured
  | LFailedToCommunicate _ _ | LResponseStatus _ | LResponseBodyJson _
  | LResponseBodyText _ | LEnsureRunning => true
  | _ => false
  end.

Definition boot_event (e : event) : bool :=
  match e with
  | EvLog _ m => boot_msg m
  | EvHttp GET _ _ _ | EvHttp PUT _ _ _ => true
  | EvInput (PConfigureNow | PClientId | PClientSecret) _ => true
  | _ => false
  end.

Definition capture_msg (m : log_msg) : bool :=
  match m with
  | LRemovingExisting | LCouldNotRemove | LDeviceAvailable _ | LPleaseOpenSpotify
  | LWillCapture | LCredentialsCreated | LSessionCaptured _ | LShuttingDown => true
  | _ => false
  end.

Definition capture_event (e : event) : bool :=
  match e with
  | EvLog _ m => capture_msg m
  | EvUnlink _ | EvZsCreate | EvZsClose | EvSleep => true
  | _ => false
  end.

(** What the wait loop itself can produce. *)
Definition loop_event (e : event) : bool :=
  match e with
  | EvSleep | EvLog INFO LCredentialsCreated | EvLog INFO (LSessionCaptured _) => true
  | _ => false
  end.

(** The seconds that end the wait: a non-empty file appears, or Ctrl-C. *)
Definition ends_wait (step : capture_step) : bool :=
  match step with
  | CsIdle => false
  | CsWrite f => Py.truthy_str (f_text f)
  | CsInterrupt => true
  end.

(** The test of line 53. *)
Definition file_ready (w : world) : bool :=
  match cred_file w with
  | Some f => Py.truthy_str (f_text f)
  | None => false
  end.

(** [w'] differs from [w] at most in the credential file. *)
Definition same_outside_file (w w' : world) : Prop :=
  stdin w' = stdin w /\ http w' = http w /\ unlink_denied w' = unlink_denied w /\
  capture w' = capture w.

(** ** Example environments *)

Module Env.

Definition configured : response :=
  mkResponse 200 "{...}"
    (Some (JObj [("client_id", JStr "id"); ("client_secret", JStr "secret")])).

Definition unconfigured : response :=
  mkResponse 200 "{...}"
    (Some (JObj [("client_id", JStr ""); ("client_secret", JStr "")])).

Definition blob : json := JObj [("username", JStr "bob"); ("credentials", JStr "AQB")].
Definition stored : file := mkFile "{...}" (Some blob).
Definition garbled : file := mkFile "not json" None.

Definition base (ins : list keys) (reps : list http_reply) (f : option file) : world :=
  mkWorld ins reps f false None None [].

(** The server lacks the API credentials, the user enters them, and the
    PUT is answered with status [s]. *)
Definition configure_with (s : Z) : world :=
  base [Line "Y"; Line "my-id"; Line "my-secret"]
       [Reply unconfigured; Reply (mkResponse s "" None)] None.


(** A server that is configured and accepts the registration (status
    [s]); the answers are: default URL, account [name], region [region],
    keep the existing file, and [cleanup] to the last prompt. *)
Definition registering (name region cleanup : string) (s : Z)
    (f : option file) (denied : bool) : world :=
  mkWorld [Line ""; Line name; Line region; Line "n"; Line cleanup]
          [Reply configured; Reply (mkResponse s "ok" None)]
          f denied None None [].

Definition plain_run : world := registering "me" "us" "n" 200 (Some stored) false.
Definition rejected_run : world := registering "me" "us" "n" 500 (Some stored) false.
Definition garbled_run : world := registering "me" "us" "n" 200 (Some garbled) false.
Definition named (name : string) : world := registering name "us" "n" 200 (Some stored) false.


Definition no_name : world := base [Line ""; Line ""] [Reply configured] None.
Definition no_region : world := base [Line ""; Line "me"; Line ""] [Reply configured] None.

(** Somebody transfers playback in the second second. *)
Definition capturing : world :=
  mkWorld [] [] None false None (Some (Some "bob")) [CsIdle; CsWrite stored].

End Env.

(** ** Further observations and scenes *)

Definition is_request (e : event) : bool :=
  match e with EvHttp _ _ _ _ => true | _ => false end.

Definition is_sleep (e : event) : bool :=
  match e with EvSleep => true | _ => false end.

(** The messages after which the bootstrap returns failure. *)
Definition boot_refusal (m : log_msg) : bool :=
  match m with
  | LPleaseConfigure | LBothMustBeProvided | LEnsureRunning => true
  | _ => false
  end.

(** The iterations of the wait loop under a script: up to and including
    the first second that ends the wait. *)
Fixpoint seconds_waited (script : list capture_step) : nat :=
  match script with
  | [] => 0
  | step :: rest => if ends_wait step then 1 else S (seconds_waited rest)
  end.

Module Scene.

(** The server is not configured and the user declines. *)
Definition declining : world :=
  Env.base [Line "no"] [Reply Env.unconfigured] None.

(** The user agrees to configure but leaves the secret empty. *)
Definition empty_secret : world :=
  Env.base [Line "y"; Line "my-id"; Line ""] [Reply Env.unconfigured] None.

(** The configuration resource answers with a JSON array. *)
Definition array_body : world :=
  Env.base [] [Reply (mkResponse 200 "[]" (Some (JArr [])))] None.

(** The configuration resource answers with something that is not JSON. *)
Definition html_body : world :=
  Env.base [] [Reply (mkResponse 200 "<html>" None)] None.

(** The configuration lacks the [client_secret] key. *)
Definition half_configured : world :=
  Env.base [Line "n"]
    [Reply (mkResponse 200 "{...}" (Some (JObj [("client_id", JStr "id")])))] None.

(** The registration is rejected and the user presses Ctrl-C at the
    last prompt. *)
Definition cancel_after_failure : world :=
  mkWorld [Line ""; Line "me"; Line "us"; Line "n"; CtrlC]
          [Reply Env.configured; Reply (mkResponse 500 "no" None)]
          (Some Env.stored) false None None [].

(** The input ends after the base URL. *)
Definition input_ends : world :=
  Env.base [Line ""] [Reply Env.configured] None.

(** A whole run in which the user declines to configure the server. *)
Definition declined_run : world :=
  Env.base [Line ""; Line "n"] [Reply Env.unconfigured] None.

(** A plain run that ends with the deletion of the file. *)
Definition deleting : world :=
  Env.registering "me" "us" "Y" 200 (Some Env.stored) false.

(** A stale file that cannot be removed. *)
Definition locked_stale : world :=
  mkWorld [] [] (Some Env.stored) true None None [CsWrite Env.stored].

(** Nobody connects within the script: only an empty file shows up. *)
Definition never_connected : world :=
  mkWorld [] [] None false None None [CsIdle; CsWrite (mkFile "" None)].

End Scene.

(** ** Symbolic execution *)

Ltac run_step :=
  cbv beta iota zeta delta
    [check_and_configure_api_creds get_spotify_session_and_wait_for_credentials
     main main_body obtain_credentials register cleanup_prompt
     bind try_except try_finally request input
     raise_for_status response_json dict_get log emit ret raise sys_exit hang
     path_exists path_unlink path_is_nonempty_file load_json_file sleep
     zs_device_name log_session_username
     is_RequestException is_JSONDecodeError is_OSError is_KeyboardInterrupt
     exc_response andb orb negb
     result_of world_of trace_of fst snd
     set_stdin set_http set_cred_file
     stdin http cred_file unlink_denied zs_name zs_session capture].

Ltac exec_case :=
  match goal with
  | |- context [match ?x with _ => _ end] =>
      lazymatch x with
      | context [match _ with _ => _ end] => fail
      | _ => idtac
      end;
      first [ match goal with H : x = _ |- _ => rewrite H end
            | destruct x eqn:? ]
  end.

Ltac exec := run_step; repeat (exec_case; cbv beta iota).

(** ** The string helpers on the spec's own examples *)

Example upper_us : Py.upper "us" = "US".
Proof. reflexivity. Qed.

Example base_url_default : normalize_base_url default_base_url = "http://localhost:7171".
Proof. reflexivity. Qed.

Example base_url_without_scheme :
  normalize_base_url "example.com:7171" = "http://example.com:7171".
Proof. reflexivity. Qed.

Example rstrip_slash_trailing : Py.rstrip_slash "http://host:7171//" = "http://host:7171".
Proof. reflexivity. Qed.

(** ** Server credential bootstrap (lines 66-119) *)

Lemma boot_events base_url w :
  Forall (fun e => boot_event e = true)
         (trace_of (check_and_configure_api_creds base_url w)).
Proof.
  destruct w. exec.
  all: cbn [app]; repeat constructor.
Qed.

(** The bootstrap touches neither the file system nor the capture side. *)
Lemma boot_frame base_url w :
  let w' := world_of (check_and_configure_api_creds base_url w) in
  cred_file w' = cred_file w /\ unlink_denied w' = unlink_denied w /\
  capture w' = capture w /\ zs_name w' = zs_name w /\ zs_session w' = zs_session w.
Proof.
  destruct w. exec.
  all: repeat split; reflexivity.
Qed.

(** C2: when the GET succeeds and reports both fields present and truthy,
    the bootstrap returns success at once: the GET is its only request (no
    PUT) and it reads no input. *)
Theorem configured_server_is_left_alone
    base_url w r rest data client_id client_secret :
  http w = Reply r :: rest ->
  http_error_status (status_code r) = false ->
  body_json r = Some data ->
  Json.get data "client_id" = Some client_id ->
  Json.get data "client_secret" = Some client_secret ->
  Json.truthy client_id = true ->
  Json.truthy client_secret = true ->
  let x := check_and_configure_api_creds base_url w in
  x = (Ret true, set_http rest w,
       [EvLog INFO LChecking;
        EvHttp GET (api_config_url base_url) None (Some 10);
        EvLog INFO LAlreadyConfigured]) /\
  filter (is_http PUT) (trace_of x) = [] /\
  filter is_input (trace_of x) = [] /\
  stdin (world_of x) = stdin w.
Proof.
  intros Hh Hs Hb Hi Hc Ti Tc x.
  assert (E : x = (Ret true, set_http rest w,
       [EvLog INFO LChecking;
        EvHttp GET (api_config_url base_url) None (Some 10);
        EvLog INFO LAlreadyConfigured])).
  { subst x. destruct w; cbn [http] in Hh; subst. exec; try reflexivity; congruence. }
  rewrite E. repeat split; reflexivity.
Qed.

Lemma configured_server_is_left_alone_witness :
  check_and_configure_api_creds "http://localhost:7171"
    (Env.base [Line "me"] [Reply Env.configured] None)
  = (Ret true, Env.base [Line "me"] [] None,
     [EvLog INFO LChecking;
      EvHttp GET "http://localhost:7171/api/credentials/spotify_api_config" None (Some 10);
      EvLog INFO LAlreadyConfigured]).
Proof.
  exact (proj1 (configured_server_is_left_alone "http://localhost:7171"
           (Env.base [Line "me"] [Reply Env.configured] None)
           Env.configured []
           (JObj [("client_id", JStr "id"); ("client_secret", JStr "secret")])
           (JStr "id") (JStr "secret")
           eq_refl eq_refl eq_refl eq_refl eq_refl eq_refl eq_refl)).
Defined.






Ltac in_concrete I :=
  cbn [In app] in I;
  repeat (destruct I as [I|I]; [try discriminate I|]);
  try contradiction.


Lemma boot_returns base_url w :
  result_of (check_and_configure_api_creds base_url w) <> Hang.
Proof. destruct w. exec. all: discriminate. Qed.






(** ** Credential capture (lines 26-64) *)

Lemma wait_loop_spec script : forall w,
  let x := wait_loop script w in
  Forall (fun e => loop_event e = true) (trace_of x) /\
  same_outside_file w (world_of x) /\
  (result_of x = Ret tt \/ result_of x = Raise KeyboardInterrupt \/ result_of x = Hang) /\
  (result_of x = Ret tt -> cred_file (world_of x) <> None).
Proof.
  induction script as [|step rest IH]; intros w.
  - cbn. unfold same_outside_file. repeat split; auto; try discriminate.
  - cbv zeta. cbn [wait_loop].
    destruct w as [ins reps f den zn zsess cap].
    destruct step as [|g|]; run_step.
    3: { cbn [app]. unfold same_outside_file. cbn.
         repeat split; auto; try discriminate; repeat constructor. }
    all: match goal with
         | |- context [if ?c then _ else _] => destruct c eqn:T
         end; cbv beta iota.
    all: try (destruct zsess as [[u|]|]; cbv beta iota; cbn [app];
              unfold same_outside_file; cbn;
              repeat split; auto; try discriminate; try (repeat constructor; fail);
              destruct f; discriminate).
    all: match goal with
         | |- context [wait_loop ?s ?w1] =>
             specialize (IH w1); cbv zeta in IH;
             unfold result_of, world_of, trace_of, same_outside_file in IH;
             destruct (wait_loop s w1) as [[r w'] t]
         end.
    all: cbn [fst snd stdin http unlink_denied capture] in IH.
    all: destruct IH as (F & S & R & C).
    all: unfold same_outside_file.
    all: destruct r; cbn [app fst snd stdin http unlink_denied capture];
           repeat split; try tauto; try discriminate.
    all: try (constructor; [reflexivity|assumption]).
    all: try (destruct R as [R|[R|R]]; auto; discriminate).
Qed.

Lemma wait_loop_hangs script : forall w,
  file_ready w = false ->
  (result_of (wait_loop script w) = Hang <-> existsb ends_wait script = false).
Proof.
  induction script as [|step rest IH]; intros w N.
  - cbn. tauto.
  - cbn [wait_loop existsb].
    destruct w as [ins reps f den zn zsess cap]. unfold file_ready in N. cbn [cred_file] in N.
    destruct step as [|g|]; run_step; cbn [ends_wait orb].
    + rewrite N. cbv beta iota.
      specialize (IH (mkWorld ins reps f den zn zsess cap) N). unfold result_of in IH.
      destruct (wait_loop rest _) as [[r w'] t]. cbn [fst] in IH.
      destruct r; exact IH.
    + destruct (Py.truthy_str (f_text g)) eqn:T; cbv beta iota.
      * destruct zsess as [[u|]|]; cbn; split; discriminate.
      * specialize (IH (mkWorld ins reps (Some g) den zn zsess cap) T). unfold result_of in IH.
        destruct (wait_loop rest _) as [[r w'] t]. cbn [fst orb] in *.
        destruct r; exact IH.
    + cbn. split; discriminate.
Qed.

Lemma loop_events_not (e : event) (t : list event) :
  Forall (fun e => loop_event e = true) t -> loop_event e = false -> ~ In e t.
Proof.
  intros F N I. rewrite Forall_forall in F. apply F in I. congruence.
Qed.

Lemma loop_events_capture (t : list event) :
  Forall (fun e => loop_event e = true) t -> Forall (fun e => capture_event e = true) t.
Proof.
  apply Forall_impl. intros [p k|m u b to| |ok| | | |l m]; try discriminate; try reflexivity.
  destruct l, m; try discriminate; reflexivity.
Qed.

Ltac use_wait_loop :=
  match goal with
  | |- context [wait_loop ?s ?w1] =>
      let P := fresh "P" in
      let Hg := fresh "Hg" in
      pose proof (wait_loop_spec s w1) as P;
      pose proof (wait_loop_hangs s w1 eq_refl) as Hg;
      cbv zeta in P;
      unfold result_of, world_of, trace_of, same_outside_file in P, Hg;
      let r := fresh "r" in
      let w' := fresh "w'" in
      let t := fresh "t" in
      destruct (wait_loop s w1) as [[r w'] t];
      cbn [fst snd stdin http unlink_denied capture cred_file] in P, Hg;
      destruct P as (F & S & R & C)
  end.

Lemma capture_spec w :
  let x := get_spotify_session_and_wait_for_credentials w in
  Forall (fun e => capture_event e = true) (trace_of x) /\
  same_outside_file w (world_of x) /\
  (result_of x = Ret tt \/ result_of x = Raise KeyboardInterrupt \/
   result_of x = Raise (SystemExit 1) \/ result_of x = Hang) /\
  (result_of x = Ret tt -> cred_file (world_of x) <> None) /\
  (In (EvLog ERROR LCouldNotRemove) (trace_of x) -> result_of x = Raise (SystemExit 1)).
Proof.
  destruct w as [ins reps f den zn zsess cap]. cbv zeta. run_step.
  destruct f as [f|]; cbv beta iota; [destruct den; cbv beta iota|].
  all: try use_wait_loop.
  all: unfold same_outside_file; cbn [stdin http unlink_denied capture cred_file].
  all: try (destruct r as [[]|e|]; cbn [app]).
  all: repeat split; try tauto; try discriminate.
  all: try (repeat (constructor; [reflexivity|]);
            apply Forall_app; split;
            [apply loop_events_capture; assumption | repeat constructor]).
  all: try (repeat constructor; fail).
  all: try (repeat (constructor; [reflexivity|]); apply loop_events_capture; assumption).
  all: try (destruct R as [R|[R|R]]; try discriminate R; inversion R; auto; fail).
  all: try (intros I; exfalso; cbn [In] in I;
            repeat (destruct I as [I|I]; [discriminate I|]);
            try (apply in_app_or in I; destruct I as [I|I];
                 [revert I; apply loop_events_not; [assumption|reflexivity]
                 |cbn [In] in I; repeat (destruct I as [I|I]; [discriminate I|]); exact I]);
            try (revert I; apply loop_events_not; [assumption|reflexivity]);
            try exact I).
Qed.

(** C9: whenever the capture phase has started the responder and then
    ends, be it by detecting the file or by an interrupt in the wait loop,
    its last action is to close the responder, which is started and closed
    once; both ways of ending come after the start; and the phase does end
    as soon as a non-empty file or an interrupt arrives. *)
Theorem capture_always_closes_responder w :
  let x := get_spotify_session_and_wait_for_credentials w in
  (In EvZsCreate (trace_of x) -> result_of x <> Hang ->
     exists t0 t1,
       trace_of x = t0 ++ EvZsCreate :: t1 ++ [EvLog INFO LShuttingDown; EvZsClose] /\
       ~ In EvZsCreate t0 /\ ~ In EvZsCreate t1 /\
       ~ In EvZsClose t0 /\ ~ In EvZsClose t1) /\
  (result_of x = Ret tt \/ result_of x = Raise KeyboardInterrupt ->
     In EvZsCreate (trace_of x)) /\
  (existsb ends_wait (capture w) = true -> result_of x <> Hang).
Proof.
  destruct w as [ins reps f den zn zsess cap]. cbv zeta. run_step.
  destruct f as [f|]; cbv beta iota; [destruct den; cbv beta iota|].
  all: try use_wait_loop.
  all: try (destruct r as [[]|e|]; cbn [app]).
  all: split; [|split].
  all: try (intros I; in_concrete I; fail).
  all: try (intros [E|E]; discriminate E).
  all: try discriminate.
  all: try (intros _; cbn [In]; tauto).
  all: try (intros E H; apply Hg in H; congruence).
  all: try (intros _ H; exfalso; apply H; reflexivity).
  all: intros _ _.
  all: match goal with
       | |- ex (fun t0 => ex (fun t1 => ?l = _ /\ _)) =>
           match l with
           | ?a :: ?b :: EvZsCreate :: ?c :: ?d :: ?e :: ?t ++ _ =>
               exists [a; b]; exists (c :: d :: e :: t)
           | EvZsCreate :: ?c :: ?d :: ?e :: ?t ++ _ =>
               exists []; exists (c :: d :: e :: t)
           end
       end.
  all: split; [reflexivity|].
  all: cbn [In]; repeat split; intros I;
         repeat (destruct I as [I|I]; [discriminate I|]);
         first [ contradiction
               | revert I; apply loop_events_not; [assumption|reflexivity] ].
Qed.

Lemma capture_always_closes_responder_witness :
  exists t0 t1,
    trace_of (get_spotify_session_and_wait_for_credentials Env.capturing) =
      t0 ++ EvZsCreate :: t1 ++ [EvLog INFO LShuttingDown; EvZsClose] /\
    ~ In EvZsCreate t0 /\ ~ In EvZsCreate t1 /\
    ~ In EvZsClose t0 /\ ~ In EvZsClose t1.
Proof.
  apply (proj1 (capture_always_closes_responder Env.capturing)).
  - cbn. left. reflexivity.
  - discriminate.
Defined.

(** ** The whole run (lines 121-206) *)

Ltac run_main :=
  cbv beta iota zeta delta
    [run_outcome run_trace run_world outcome_of
     main main_body obtain_credentials register cleanup_prompt
     bind try_except try_finally request input
     raise_for_status log emit ret raise sys_exit
     path_exists path_unlink load_json_file
     is_RequestException is_JSONDecodeError is_OSError is_KeyboardInterrupt
     exc_response andb orb negb
     result_of world_of trace_of fst snd
     set_stdin set_http set_cred_file
     stdin http cred_file unlink_denied zs_name zs_session capture].

Ltac use_boot :=
  match goal with
  | |- context [check_and_configure_api_creds ?b ?w1] =>
      let Fb := fresh "Fb" in
      let Sb := fresh "Sb" in
      let Rb := fresh "Rb" in
      pose proof (boot_events b w1) as Fb;
      pose proof (boot_frame b w1) as Sb;
      pose proof (boot_returns b w1) as Rb;
      cbv zeta in Sb; unfold result_of, world_of, trace_of in Fb, Sb, Rb;
      let rb := fresh "rb" in
      let wb := fresh "wb" in
      let tb := fresh "tb" in
      destruct (check_and_configure_api_creds b w1) as [[rb wb] tb];
      destruct wb;
      cbn [fst snd stdin http unlink_denied capture cred_file zs_name zs_session] in Fb, Sb, Rb;
      destruct Sb as (? & ? & ? & ? & ?); subst
  end.

Ltac use_capture :=
  match goal with
  | |- context [get_spotify_session_and_wait_for_credentials ?w1] =>
      let P := fresh "P" in
      pose proof (capture_spec w1) as P;
      cbv zeta in P; unfold result_of, world_of, trace_of, same_outside_file in P;
      let rc := fresh "rc" in
      let wc := fresh "wc" in
      let tc := fresh "tc" in
      destruct (get_spotify_session_and_wait_for_credentials w1) as [[rc wc] tc];
      destruct wc;
      cbn [fst snd stdin http unlink_denied capture cred_file zs_name zs_session] in P;
      let Fc := fresh "Fc" in
      let Rc := fresh "Rc" in
      let Cc := fresh "Cc" in
      let Lc := fresh "Lc" in
      destruct P as (Fc & (? & ? & ? & ?) & Rc & Cc & Lc); subst
  end.

Ltac exec_main :=
  run_main; repeat (first [use_boot | use_capture | exec_case]; cbv beta iota).

Lemma boot_events_not (e : event) (t : list event) :
  Forall (fun e => boot_event e = true) t -> boot_event e = false -> ~ In e t.
Proof.
  intros F N I. rewrite Forall_forall in F. apply F in I. congruence.
Qed.

Lemma capture_events_not (e : event) (t : list event) :
  Forall (fun e => capture_event e = true) t -> capture_event e = false -> ~ In e t.
Proof.
  intros F N I. rewrite Forall_forall in F. apply F in I. congruence.
Qed.

(** Decompose a hypothesis [I : In e trace]. *)
Ltac in_trace I :=
  cbn [app] in I;
  repeat first
    [ contradiction
    | (exfalso; revert I; apply boot_events_not; [assumption|reflexivity])
    | (exfalso; revert I; apply capture_events_not; [assumption|reflexivity])
    | (apply in_app_or in I; destruct I as [I|I])
    | (destruct I as [I|I]; [try discriminate I|]) ].

Ltac absurd_truthy :=
  match goal with
  | H : Py.truthy_str "" = true |- _ => discriminate H
  | H : Py.truthy_str (Py.upper "") = true |- _ => discriminate H
  | H : Py.truthy_str (String _ _) = false |- _ => discriminate H
  end.

(** C7: a run in which the account name or the region is entered empty
    exits with status 1, and makes no POST. *)
Theorem empty_name_or_region_aborts_before_post w :
  In (EvInput PAccountName (Some (Line ""))) (run_trace w) \/
  In (EvInput PRegion (Some (Line ""))) (run_trace w) ->
  run_outcome w = Exited 1 /\
  exit_status (run_outcome w) = Some 1 /\
  (forall u b t, ~ In (EvHttp POST u b t) (run_trace w)).
Proof.
  destruct w. exec_main.
  all: intros [I|I]; in_trace I.
  all: inversion I; subst; clear I; try absurd_truthy.
  all: split; [reflexivity|split; [reflexivity|]].
  all: intros u b t J; in_trace J.
Qed.

Ltac in_search :=
  first [ apply in_eq
        | apply in_cons; in_search
        | apply in_or_app; right; in_search
        | apply in_or_app; left; in_search ].

Ltac in_solve := cbn [app]; in_search.

Lemma empty_name_or_region_aborts_before_post_witness :
  run_outcome Env.no_name = Exited 1 /\
  exit_status (run_outcome Env.no_name) = Some 1 /\
  (forall u b t, ~ In (EvHttp POST u b t) (run_trace Env.no_name)).
Proof.
  apply (empty_name_or_region_aborts_before_post Env.no_name).
  left. vm_compute. tauto.
Defined.

Lemma filter_none (p q : event -> bool) (t : list event) :
  (forall e, q e = true -> p e = false) ->
  Forall (fun e => q e = true) t -> filter p t = [].
Proof.
  intros N F. induction F as [|e t E _ IH]; [reflexivity|].
  cbn [filter]. rewrite (N e E). exact IH.
Qed.

Lemma boot_no_cleanup e : boot_event e = true -> is_cleanup_prompt e = false.
Proof. destruct e as [[] k| | | | | | |]; try reflexivity; discriminate. Qed.

Lemma boot_no_post e : boot_event e = true -> is_http POST e = false.
Proof. destruct e as [|[] | | | | | |]; try reflexivity; discriminate. Qed.

Lemma capture_no_cleanup e : capture_event e = true -> is_cleanup_prompt e = false.
Proof. destruct e; try reflexivity; discriminate. Qed.

Lemma capture_no_post e : capture_event e = true -> is_http POST e = false.
Proof. destruct e; try reflexivity; discriminate. Qed.

Ltac filter_trace :=
  repeat first
    [ progress cbn [filter is_cleanup_prompt is_http app length]
    | rewrite filter_app
    | match goal with
      | F : Forall (fun e => boot_event e = true) ?t |- context [filter is_cleanup_prompt ?t] =>
          rewrite (filter_none is_cleanup_prompt boot_event t boot_no_cleanup F)
      | F : Forall (fun e => boot_event e = true) ?t |- context [filter (is_http POST) ?t] =>
          rewrite (filter_none (is_http POST) boot_event t boot_no_post F)
      | F : Forall (fun e => capture_event e = true) ?t |- context [filter is_cleanup_prompt ?t] =>
          rewrite (filter_none is_cleanup_prompt capture_event t capture_no_cleanup F)
      | F : Forall (fun e => capture_event e = true) ?t |- context [filter (is_http POST) ?t] =>
          rewrite (filter_none (is_http POST) capture_event t capture_no_post F)
      end ].

(** C3 (as the code has it): in every run that attempts the registration
    POST the deletion prompt is issued exactly once, whatever becomes of the
    POST; in general there are as many deletion prompts as POSTs. *)
Theorem cleanup_prompt_once_per_post w :
  (forall u b t, In (EvHttp POST u b t) (run_trace w) ->
     length (filter is_cleanup_prompt (run_trace w)) = 1%nat) /\
  length (filter is_cleanup_prompt (run_trace w)) =
  length (filter (is_http POST) (run_trace w)).
Proof.
  destruct w. exec_main.
  all: split; [intros u b t I; in_trace I|]; filter_trace; reflexivity.
Qed.

Lemma cleanup_prompt_once_per_post_witness :
  length (filter is_cleanup_prompt (run_trace Env.rejected_run)) = 1%nat.
Proof.
  apply (proj1 (cleanup_prompt_once_per_post Env.rejected_run)
           "http://localhost:7171/api/credentials/spotify/me"
           (Some (registration_payload "US" Env.blob)) None).
  vm_compute. tauto.
Defined.

(** C3 as stated fails: the registration phase starts by reading the
    credential file; when that file is not JSON the phase fails and the
    program exits without ever asking whether to delete it. *)
Lemma garbled_file_skips_cleanup_prompt :
  In EvOpen (run_trace Env.garbled_run) /\
  run_outcome Env.garbled_run = Exited 1 /\
  length (filter is_cleanup_prompt (run_trace Env.garbled_run)) = 0%nat.
Proof. vm_compute. tauto. Qed.

Lemma truthy_str_not_empty (s : string) : Py.truthy_str s = true -> s <> "".
Proof. intros T E. rewrite E in T. discriminate T. Qed.









(** C10: the URL of every registration POST is the base URL (default and
    scheme filled in, trailing slashes stripped), the fixed path and the
    account name exactly as typed, concatenated; and every non-empty name,
    whatever its characters, is accepted and sent that way. *)
Theorem account_name_goes_raw_into_url :
  (forall w u b t,
     In (EvHttp POST u b t) (run_trace w) ->
     exists base name,
       In (EvInput PBaseUrl (Some (Line base))) (run_trace w) /\
       In (EvInput PAccountName (Some (Line name))) (run_trace w) /\
       name <> "" /\
       u = (Py.rstrip_slash
              (normalize_base_url (if Py.truthy_str base then base else default_base_url))
            ++ "/api/credentials/spotify/" ++ name)%string) /\
  (forall name,
     name <> "" ->
     In (EvHttp POST ("http://localhost:7171/api/credentials/spotify/" ++ name)%string
           (Some (registration_payload "US" Env.blob)) None)
        (run_trace (Env.named name))).
Proof.
  split.
  - intros w. destruct w. exec_main.
    all: intros u b t I; in_trace I.
    all: inversion I; subst; clear I.
    all: eexists; eexists; split; [in_solve|split; [in_solve|split]].
    all: try (apply truthy_str_not_empty; assumption).
    all: match goal with H : Py.truthy_str _ = _ |- _ => rewrite H end; reflexivity.
  - intros [|c name] N; [congruence|]. vm_compute. tauto.
Qed.

Lemma account_name_goes_raw_into_url_witness :
  In (EvHttp POST "http://localhost:7171/api/credentials/spotify/a/b?c#d"
        (Some (registration_payload "US" Env.blob)) None)
     (run_trace (Env.named "a/b?c#d")).
Proof.
  apply (proj2 account_name_goes_raw_into_url "a/b?c#d").
  discriminate.
Defined.

(** ** Which answers count as yes *)

Lemma lower_ascii_y (c : ascii) :
  Py.lower_ascii c = "y"%char -> c = "y"%char \/ c = "Y"%char.
Proof. destruct c as [[] [] [] [] [] [] [] []]; cbv; intros H; try discriminate H; auto. Qed.

Lemma lower_is_y (s : string) :
  Py.lower s = "y" <-> s = "y" \/ s = "Y".
Proof.
  split.
  - destruct s as [|c [|d r]]; try discriminate.
    cbn. intros H. inversion H as [H1].
    destruct (lower_ascii_y c H1); subst; auto.
  - intros [E|E]; subst; reflexivity.
Qed.

Lemma not_yes (s : string) :
  s <> "y" -> s <> "Y" -> (Py.lower s =? "y")%string = false.
Proof.
  intros A B. apply String.eqb_neq. intros E. apply lower_is_y in E. tauto.
Qed.

(** ** The bootstrap, case by case *)

(** X1: when the server is not configured and the user answers anything but
    y or Y, the bootstrap fails at once: the GET is its only request and the
    answer the only input it reads. *)
Theorem declining_sends_nothing
    base_url w r rest data client_id client_secret answer ins :
  http w = Reply r :: rest ->
  http_error_status (status_code r) = false ->
  body_json r = Some data ->
  Json.get data "client_id" = Some client_id ->
  Json.get data "client_secret" = Some client_secret ->
  Json.truthy client_id && Json.truthy client_secret = false ->
  stdin w = Line answer :: ins ->
  answer <> "y" -> answer <> "Y" ->
  check_and_configure_api_creds base_url w =
    (Ret false, set_stdin ins (set_http rest w),
     [EvLog INFO LChecking;
      EvHttp GET (api_config_url base_url) None (Some 10);
      EvLog WARNING LMissingApiCreds;
      EvLog WARNING LDashboardHint;
      EvInput PConfigureNow (Some (Line answer));
      EvLog INFO LPleaseConfigure]).
Proof.
  intros Hh Hs Hb Hi Hc Ht Hin Ny NY.
  pose proof (not_yes answer Ny NY) as Hn.
  destruct w as [ins0 reps f den zn zsess cap]; cbn [http stdin] in Hh, Hin; subst.
  destruct (Json.truthy client_id) eqn:Ti;
    destruct (Json.truthy client_secret) eqn:Tc; try discriminate Ht.
  all: exec; reflexivity.
Qed.

Lemma declining_sends_nothing_witness :
  result_of (check_and_configure_api_creds "http://localhost:7171" Scene.declining)
  = Ret false /\
  filter is_request
    (trace_of (check_and_configure_api_creds "http://localhost:7171" Scene.declining))
  = [EvHttp GET "http://localhost:7171/api/credentials/spotify_api_config" None (Some 10)].
Proof.
  rewrite (declining_sends_nothing "http://localhost:7171" Scene.declining
             Env.unconfigured []
             (JObj [("client_id", JStr ""); ("client_secret", JStr "")])
             (JStr "") (JStr "") "no" []
             eq_refl eq_refl eq_refl eq_refl eq_refl eq_refl eq_refl
             ltac:(discriminate) ltac:(discriminate)).
  split; reflexivity.
Defined.


(** X2: when the user agrees to configure but leaves the client id or the
    secret empty, both are still asked for, nothing is sent and the bootstrap
    fails. *)
Theorem empty_credentials_are_not_sent
    base_url w r rest data client_id client_secret answer new_id new_secret ins :
  http w = Reply r :: rest ->
  http_error_status (status_code r) = false ->
  body_json r = Some data ->
  Json.get data "client_id" = Some client_id ->
  Json.get data "client_secret" = Some client_secret ->
  Json.truthy client_id && Json.truthy client_secret = false ->
  stdin w = Line answer :: Line new_id :: Line new_secret :: ins ->
  Py.lower answer = "y" ->
  new_id = "" \/ new_secret = "" ->
  check_and_configure_api_creds base_url w =
    (Ret false, set_stdin ins (set_http rest w),
     [EvLog INFO LChecking;
      EvHttp GET (api_config_url base_url) None (Some 10);
      EvLog WARNING LMissingApiCreds;
      EvLog WARNING LDashboardHint;
      EvInput PConfigureNow (Some (Line answer));
      EvInput PClientId (Some (Line new_id));
      EvInput PClientSecret (Some (Line new_secret));
      EvLog ERROR LBothMustBeProvided]).
Proof.
  intros Hh Hs Hb Hi Hc Ht Hin Hy He.
  assert (Hy' : (Py.lower answer =? "y")%string = true) by (rewrite Hy; reflexivity).
  assert (Hor : negb (Py.truthy_str new_id) || negb (Py.truthy_str new_secret) = true).
  { destruct He; subst; cbn; [reflexivity|]. destruct (Py.truthy_str new_id); reflexivity. }
  destruct w as [ins0 reps f den zn zsess cap]; cbn [http stdin] in Hh, Hin; subst.
  destruct (Json.truthy client_id) eqn:Ti;
    destruct (Json.truthy client_secret) eqn:Tc; try discriminate Ht.
  all: destruct (Py.truthy_str new_id) eqn:T1; destruct (Py.truthy_str new_secret) eqn:T2;
       try discriminate Hor.
  all: exec; reflexivity.
Qed.

Lemma empty_credentials_are_not_sent_witness :
  result_of (check_and_configure_api_creds "http://localhost:7171" Scene.empty_secret)
  = Ret false /\
  filter (is_http PUT)
    (trace_of (check_and_configure_api_creds "http://localhost:7171" Scene.empty_secret))
  = [].
Proof.
  rewrite (empty_credentials_are_not_sent "http://localhost:7171" Scene.empty_secret
             Env.unconfigured []
             (JObj [("client_id", JStr ""); ("client_secret", JStr "")])
             (JStr "") (JStr "") "y" "my-id" "" []
             eq_refl eq_refl eq_refl eq_refl eq_refl eq_refl eq_refl eq_refl
             (or_intror eq_refl)).
  split; reflexivity.
Defined.


(** X3: a configuration body that is JSON but not an object makes the
    bootstrap raise [AttributeError] right after the GET, with nothing
    logged: the [except] clause does not cover it. *)
Theorem non_object_body_raises base_url w r rest data :
  http w = Reply r :: rest ->
  http_error_status (status_code r) = false ->
  body_json r = Some data ->
  (forall fields, data <> JObj fields) ->
  check_and_configure_api_creds base_url w =
    (Raise AttributeError, set_http rest w,
     [EvLog INFO LChecking; EvHttp GET (api_config_url base_url) None (Some 10)]).
Proof.
  intros Hh Hs Hb Hn.
  assert (Hg : forall k, Json.get data k = None).
  { intros k. destruct data; try reflexivity. exfalso. eapply Hn. reflexivity. }
  pose proof (Hg "client_id") as G1.
  destruct w as [ins0 reps f den zn zsess cap]; cbn [http] in Hh; subst.
  exec; reflexivity.
Qed.

Lemma non_object_body_raises_witness :
  result_of (check_and_configure_api_creds "http://localhost:7171" Scene.array_body)
  = Raise AttributeError.
Proof.
  rewrite (non_object_body_raises "http://localhost:7171" Scene.array_body
             (mkResponse 200 "[]" (Some (JArr []))) [] (JArr [])
             eq_refl eq_refl eq_refl ltac:(discriminate)).
  reflexivity.
Defined.


(** X4: a configuration body that is not JSON is a failure of the
    bootstrap, reported without status or body although a response exists. *)
Theorem undecodable_body_is_a_failure base_url w r rest :
  http w = Reply r :: rest ->
  http_error_status (status_code r) = false ->
  body_json r = None ->
  check_and_configure_api_creds base_url w =
    (Ret false, set_http rest w,
     [EvLog INFO LChecking;
      EvHttp GET (api_config_url base_url) None (Some 10);
      EvLog ERROR (LFailedToCommunicate (api_config_url base_url) RequestsJSONDecodeError);
      EvLog ERROR LEnsureRunning]).
Proof.
  intros Hh Hs Hb.
  destruct w as [ins0 reps f den zn zsess cap]; cbn [http] in Hh; subst.
  exec; reflexivity.
Qed.

Lemma undecodable_body_is_a_failure_witness :
  result_of (check_and_configure_api_creds "http://localhost:7171" Scene.html_body)
  = Ret false.
Proof.
  rewrite (undecodable_body_is_a_failure "http://localhost:7171" Scene.html_body
             (mkResponse 200 "<html>" None) [] eq_refl eq_refl eq_refl).
  reflexivity.
Defined.


(** X5: the bootstrap makes one GET and at most one PUT after it, both to
    the configuration URL with a timeout of 10; a PUT carries a non-empty id
    and secret; at most three answers are read. *)
Theorem bootstrap_requests base_url w :
  let x := check_and_configure_api_creds base_url w in
  let url := api_config_url base_url in
  (filter is_request (trace_of x) = [EvHttp GET url None (Some 10)] \/
   exists a b,
     a <> "" /\ b <> "" /\
     filter is_request (trace_of x) =
       [EvHttp GET url None (Some 10);
        EvHttp PUT url (Some (api_config_payload a b)) (Some 10)]) /\
  (length (filter is_input (trace_of x)) <= 3)%nat.
Proof.
  destruct w as [ins0 reps f den zn zsess cap]. cbv zeta. exec.
  all: cbn [app filter is_request is_input length]; split; [|lia].
  all: first [ left; reflexivity
             | right; do 2 eexists; split; [|split]; cycle 2;
               [ reflexivity
               | apply truthy_str_not_empty; assumption
               | apply truthy_str_not_empty; assumption ] ].
Qed.

(** X6: the bootstrap succeeds only when the server answered the GET with
    a usable object and either reported both fields truthy (then there is
    no PUT) or accepted the PUT. *)
Theorem bootstrap_success_is_earned base_url w :
  let x := check_and_configure_api_creds base_url w in
  result_of x = Ret true ->
  exists r rest data client_id client_secret,
    http w = Reply r :: rest /\
    http_error_status (status_code r) = false /\
    body_json r = Some data /\
    Json.get data "client_id" = Some client_id /\
    Json.get data "client_secret" = Some client_secret /\
    ((Json.truthy client_id && Json.truthy client_secret = true /\
      filter (is_http PUT) (trace_of x) = []) \/
     (Json.truthy client_id && Json.truthy client_secret = false /\
      exists r2 rest2 u b t,
        rest = Reply r2 :: rest2 /\
        http_error_status (status_code r2) = false /\
        In (EvHttp PUT u b t) (trace_of x))).
Proof.
  destruct w as [ins reps f den zn zsess cap]. cbv zeta.
  exec.
  all: intros E; try discriminate E.
  all: repeat match goal with H : Json.truthy _ = _ |- _ => rewrite H end.
  all: do 5 eexists.
  all: split; [reflexivity|].
  all: split;
       [first [ eassumption
              | unfold http_error_status;
                match goal with H : (400 <=? _) = false |- _ => rewrite H end;
                reflexivity ]|].
  all: do 3 (split; [eassumption|]).
  all: repeat match goal with H : Json.truthy _ = _ |- _ => rewrite H end.
  all: first [ left; split; reflexivity
             | right; split; [reflexivity|]; do 5 eexists;
               split; [reflexivity|split; [eassumption|in_solve]] ].
Qed.

Lemma bootstrap_success_is_earned_witness :
  exists r rest data client_id client_secret,
    http (Env.configure_with 204) = Reply r :: rest /\
    http_error_status (status_code r) = false /\
    body_json r = Some data /\
    Json.get data "client_id" = Some client_id /\
    Json.get data "client_secret" = Some client_secret /\
    ((Json.truthy client_id && Json.truthy client_secret = true /\
      filter (is_http PUT)
        (trace_of (check_and_configure_api_creds "http://localhost:7171"
                     (Env.configure_with 204))) = []) \/
     (Json.truthy client_id && Json.truthy client_secret = false /\
      exists r2 rest2 u b t,
        rest = Reply r2 :: rest2 /\
        http_error_status (status_code r2) = false /\
        In (EvHttp PUT u b t)
           (trace_of (check_and_configure_api_creds "http://localhost:7171"
                        (Env.configure_with 204))))).
Proof.
  apply (bootstrap_success_is_earned "http://localhost:7171" (Env.configure_with 204)).
  reflexivity.
Defined.



Lemma asks_when_unconfigured base_url w r rest data client_id client_secret :
  http w = Reply r :: rest ->
  http_error_status (status_code r) = false ->
  body_json r = Some data ->
  Json.get data "client_id" = Some client_id ->
  Json.get data "client_secret" = Some client_secret ->
  Json.truthy client_id && Json.truthy client_secret = false ->
  exists k t,
    trace_of (check_and_configure_api_creds base_url w) =
      [EvLog INFO LChecking;
       EvHttp GET (api_config_url base_url) None (Some 10);
       EvLog WARNING LMissingApiCreds;
       EvLog WARNING LDashboardHint;
       EvInput PConfigureNow k] ++ t.
Proof.
  intros Hh Hs Hb Hi Hc Ht.
  destruct w as [ins reps f den zn zsess cap]; cbn [http] in Hh; subst.
  destruct (Json.truthy client_id) eqn:Ti;
    destruct (Json.truthy client_secret) eqn:Tc; try discriminate Ht.
  all: exec.
  all: cbn [app]; do 2 eexists; reflexivity.
Qed.

(** X7: a configuration object that lacks [client_id] or [client_secret]
    counts as unconfigured: the next thing is the question whether to
    configure. *)
Theorem missing_key_counts_as_unconfigured base_url w r rest fields :
  http w = Reply r :: rest ->
  http_error_status (status_code r) = false ->
  body_json r = Some (JObj fields) ->
  Json.assoc "client_id" fields = None \/ Json.assoc "client_secret" fields = None ->
  exists k t,
    trace_of (check_and_configure_api_creds base_url w) =
      [EvLog INFO LChecking;
       EvHttp GET (api_config_url base_url) None (Some 10);
       EvLog WARNING LMissingApiCreds;
       EvLog WARNING LDashboardHint;
       EvInput PConfigureNow k] ++ t.
Proof.
  intros Hh Hs Hb Hm.
  eapply asks_when_unconfigured; try eassumption; try reflexivity.
  destruct Hm as [E|E]; rewrite E; cbn [Json.truthy]; [reflexivity|apply andb_false_r].
Qed.

Lemma missing_key_counts_as_unconfigured_witness :
  exists k t,
    trace_of (check_and_configure_api_creds "http://localhost:7171" Scene.half_configured) =
      [EvLog INFO LChecking;
       EvHttp GET (api_config_url "http://localhost:7171") None (Some 10);
       EvLog WARNING LMissingApiCreds;
       EvLog WARNING LDashboardHint;
       EvInput PConfigureNow k] ++ t.
Proof.
  apply (missing_key_counts_as_unconfigured "http://localhost:7171" Scene.half_configured
           (mkResponse 200 "{...}" (Some (JObj [("client_id", JStr "id")]))) []
           [("client_id", JStr "id")] eq_refl eq_refl eq_refl).
  right. reflexivity.
Defined.


(** ** More of the capture phase *)

Lemma wait_loop_fresh script : forall w,
  file_ready w = false ->
  result_of (wait_loop script w) = Ret tt ->
  exists f, cred_file (world_of (wait_loop script w)) = Some f /\
            In (CsWrite f) script /\ f_text f <> "".
Proof.
  induction script as [|step rest IH]; intros w N.
  - cbn. discriminate.
  - cbn [wait_loop].
    destruct w as [ins reps f den zn zsess cap]. unfold file_ready in N. cbn [cred_file] in N.
    destruct step as [|g|]; run_step.
    + rewrite N. cbv beta iota.
      specialize (IH (mkWorld ins reps f den zn zsess cap) N).
      unfold result_of, world_of in IH.
      destruct (wait_loop rest _) as [[r w'] t]. cbn [fst snd] in IH.
      destruct r; try discriminate.
      intros E. destruct (IH E) as (h & A & B & C).
      exists h. cbn [In]. auto.
    + destruct (Py.truthy_str (f_text g)) eqn:T; cbv beta iota.
      * destruct zsess as [[u|]|]; cbv beta iota; intros _; exists g; cbn [In];
          (split; [reflexivity|split; [auto|]]);
          intros E; rewrite E in T; discriminate T.
      * specialize (IH (mkWorld ins reps (Some g) den zn zsess cap) T).
        unfold result_of, world_of in IH.
        destruct (wait_loop rest _) as [[r w'] t]. cbn [fst snd] in IH.
        destruct r; try discriminate.
        intros E. destruct (IH E) as (h & A & B & C).
        exists h. cbn [In]. auto.
    + discriminate.
Qed.

Lemma wait_loop_sleeps script : forall w,
  file_ready w = false ->
  length (filter is_sleep (trace_of (wait_loop script w))) = seconds_waited script.
Proof.
  induction script as [|step rest IH]; intros w N.
  - reflexivity.
  - cbn [wait_loop seconds_waited].
    destruct w as [ins reps f den zn zsess cap]. unfold file_ready in N. cbn [cred_file] in N.
    destruct step as [|g|]; run_step; cbn [ends_wait].
    + rewrite N. cbv beta iota.
      specialize (IH (mkWorld ins reps f den zn zsess cap) N). unfold trace_of in IH.
      destruct (wait_loop rest _) as [[r w'] t]. cbn [snd] in IH.
      destruct r; cbn [app filter is_sleep length]; rewrite IH; reflexivity.
    + destruct (Py.truthy_str (f_text g)) eqn:T; cbv beta iota.
      * destruct zsess as [[u|]|]; reflexivity.
      * specialize (IH (mkWorld ins reps (Some g) den zn zsess cap) T). unfold trace_of in IH.
        destruct (wait_loop rest _) as [[r w'] t]. cbn [snd] in IH.
        destruct r; cbn [app filter is_sleep length]; rewrite IH; reflexivity.
    + reflexivity.
Qed.

Ltac use_wait_loop_full :=
  match goal with
  | |- context [wait_loop ?s ?w1] =>
      let P := fresh "P" in
      let Hg := fresh "Hg" in
      let Hf := fresh "Hf" in
      let Hs := fresh "Hs" in
      pose proof (wait_loop_spec s w1) as P;
      pose proof (wait_loop_hangs s w1 eq_refl) as Hg;
      pose proof (wait_loop_fresh s w1 eq_refl) as Hf;
      pose proof (wait_loop_sleeps s w1 eq_refl) as Hs;
      cbv zeta in P;
      unfold result_of, world_of, trace_of, same_outside_file in P, Hg, Hf, Hs;
      let r := fresh "r" in
      let w' := fresh "w'" in
      let t := fresh "t" in
      destruct (wait_loop s w1) as [[r w'] t];
      cbn [fst snd stdin http unlink_denied capture cred_file] in P, Hg, Hf, Hs;
      destruct P as (F & S & R & C)
  end.

(** X8: when the capture phase returns, the credential file is a non-empty
    one written during this wait, never a file left from before. *)
Theorem capture_returns_a_fresh_file w :
  let x := get_spotify_session_and_wait_for_credentials w in
  result_of x = Ret tt ->
  exists f, cred_file (world_of x) = Some f /\
            In (CsWrite f) (capture w) /\ f_text f <> "".
Proof.
  destruct w as [ins reps f den zn zsess cap]. cbv zeta. run_step.
  destruct f as [f|]; cbv beta iota; [destruct den; cbv beta iota|].
  all: try use_wait_loop_full.
  all: try (destruct r as [[]|e|]; cbn [app]).
  all: intros E; try discriminate E.
  all: apply Hf; reflexivity.
Qed.

Lemma capture_returns_a_fresh_file_witness :
  exists f,
    cred_file (world_of (get_spotify_session_and_wait_for_credentials Env.capturing))
      = Some f /\
    In (CsWrite f) (capture Env.capturing) /\ f_text f <> "".
Proof.
  apply (capture_returns_a_fresh_file Env.capturing). reflexivity.
Defined.


(** X9: when the stale file cannot be removed the capture phase exits with
    status 1 before a responder is created and without waiting. *)
Theorem undeletable_stale_file_stops_capture w f :
  cred_file w = Some f ->
  unlink_denied w = true ->
  get_spotify_session_and_wait_for_credentials w =
    (Raise (SystemExit 1), w,
     [EvLog INFO LRemovingExisting; EvUnlink false; EvLog ERROR LCouldNotRemove]).
Proof.
  destruct w as [ins reps f0 den zn zsess cap]. cbn [cred_file unlink_denied].
  intros E D. subst. reflexivity.
Qed.

Lemma undeletable_stale_file_stops_capture_witness :
  get_spotify_session_and_wait_for_credentials Scene.locked_stale =
    (Raise (SystemExit 1), Scene.locked_stale,
     [EvLog INFO LRemovingExisting; EvUnlink false; EvLog ERROR LCouldNotRemove]).
Proof.
  apply (undeletable_stale_file_stops_capture Scene.locked_stale Env.stored); reflexivity.
Defined.


(** X10: the capture phase waits forever exactly when it gets past the stale
    file and no second of the script brings a non-empty file or an
    interrupt; it sleeps once per second up to and including the one that
    ends the wait. *)
Theorem capture_blocks_until_something_arrives w :
  let x := get_spotify_session_and_wait_for_credentials w in
  (result_of x = Hang <->
     (cred_file w = None \/ unlink_denied w = false) /\
     existsb ends_wait (capture w) = false) /\
  ((cred_file w = None \/ unlink_denied w = false) ->
     length (filter is_sleep (trace_of x)) = seconds_waited (capture w)).
Proof.
  destruct w as [ins reps f den zn zsess cap]. cbv zeta. run_step.
  cbn [cred_file unlink_denied capture].
  destruct f as [f|]; cbv beta iota; [destruct den; cbv beta iota|].
  all: try use_wait_loop_full.
  all: try (destruct r as [[]|e|]; cbn [app]).
  all: split.
  all: try (intros _; cbn [filter is_sleep length]; rewrite ?filter_app, ?length_app;
            cbn [filter is_sleep length]; rewrite ?Nat.add_0_r; assumption).
  all: try (split;
            [ intros E; first [ discriminate E | split; [auto|apply Hg; reflexivity] ]
            | intros [_ E]; apply Hg in E; first [ discriminate E | reflexivity ] ]).
  - split; [discriminate|]. intros [[E|E] _]; discriminate E.
  - intros [E|E]; discriminate E.
Qed.

Lemma capture_blocks_until_something_arrives_witness :
  result_of (get_spotify_session_and_wait_for_credentials Scene.never_connected) = Hang /\
  length (filter is_sleep
            (trace_of (get_spotify_session_and_wait_for_credentials Scene.never_connected)))
  = 2%nat.
Proof.
  destruct (capture_blocks_until_something_arrives Scene.never_connected) as [H S].
  split.
  - apply H. split; [left; reflexivity|reflexivity].
  - apply S. left. reflexivity.
Defined.


Lemma capture_no_unlink w ok :
  cred_file w = None ->
  ~ In (EvUnlink ok) (trace_of (get_spotify_session_and_wait_for_credentials w)).
Proof.
  destruct w as [ins reps f den zn zsess cap]. cbn [cred_file]. intros E. subst f.
  run_step. use_wait_loop.
  destruct r as [[]|e|]; cbn [app In]; intros I.
  all: repeat (destruct I as [I|I]; [discriminate I|]).
  all: try (apply in_app_or in I; destruct I as [I|I];
            [|cbn [In] in I; repeat (destruct I as [I|I]; [discriminate I|]); contradiction]).
  all: revert I; apply loop_events_not; [assumption|reflexivity].
Qed.

(** ** What the whole run needs to know of the bootstrap *)

Lemma boot_interrupt base_url w p :
  In (EvInput p (Some CtrlC)) (trace_of (check_and_configure_api_creds base_url w)) ->
  result_of (check_and_configure_api_creds base_url w) = Raise KeyboardInterrupt.
Proof.
  destruct w as [ins reps f den zn zsess cap]. exec.
  all: intros I; in_concrete I; reflexivity.
Qed.

Lemma boot_eof base_url w p :
  In (EvInput p None) (trace_of (check_and_configure_api_creds base_url w)) ->
  result_of (check_and_configure_api_creds base_url w) = Raise EOFError.
Proof.
  destruct w as [ins reps f den zn zsess cap]. exec.
  all: intros I; in_concrete I; reflexivity.
Qed.

Lemma boot_refused base_url w l m :
  In (EvLog l m) (trace_of (check_and_configure_api_creds base_url w)) ->
  boot_refusal m = true ->
  result_of (check_and_configure_api_creds base_url w) = Ret false.
Proof.
  destruct w as [ins reps f den zn zsess cap]. exec.
  all: intros I; in_concrete I.
  all: try (inversion I; subst; clear I; intros R; try discriminate R; reflexivity).
Qed.

Lemma boot_urls base_url w m u b t :
  In (EvHttp m u b t) (trace_of (check_and_configure_api_creds base_url w)) ->
  u = api_config_url base_url /\ t = Some 10 /\ m <> POST.
Proof.
  destruct w as [ins reps f den zn zsess cap]. exec.
  all: intros I; in_concrete I.
  all: inversion I; subst; clear I; repeat split; discriminate.
Qed.

Lemma boot_gets_first base_url w :
  In (EvHttp GET (api_config_url base_url) None (Some 10))
     (trace_of (check_and_configure_api_creds base_url w)) /\
  (length (filter is_request (trace_of (check_and_configure_api_creds base_url w))) <= 2)%nat.
Proof.
  destruct w as [ins reps f den zn zsess cap]. exec.
  all: cbn [app filter is_request length In]; split; [tauto|lia].
Qed.

Lemma boot_raises base_url w e :
  result_of (check_and_configure_api_creds base_url w) = Raise e ->
  e = KeyboardInterrupt \/ e = EOFError \/ e = AttributeError.
Proof.
  revert e. destruct w as [ins reps f den zn zsess cap]. exec.
  all: intros e' E; inversion E; auto.
Qed.

Ltac use_boot_full :=
  match goal with
  | |- context [check_and_configure_api_creds ?b ?w1] =>
      let Fb := fresh "Fb" in
      let Sb := fresh "Sb" in
      let Rb := fresh "Rb" in
      let Kb := fresh "Kb" in
      let Eb := fresh "Eb" in
      let Lb := fresh "Lb" in
      let Ub := fresh "Ub" in
      let Gb := fresh "Gb" in
      let Xb := fresh "Xb" in
      pose proof (boot_events b w1) as Fb;
      pose proof (boot_frame b w1) as Sb;
      pose proof (boot_returns b w1) as Rb;
      pose proof (boot_interrupt b w1) as Kb;
      pose proof (boot_eof b w1) as Eb;
      pose proof (boot_refused b w1) as Lb;
      pose proof (boot_urls b w1) as Ub;
      pose proof (boot_gets_first b w1) as Gb;
      pose proof (boot_raises b w1) as Xb;
      cbv zeta in Sb;
      unfold result_of, world_of, trace_of in Fb, Sb, Rb, Kb, Eb, Lb, Ub, Gb, Xb;
      let rb := fresh "rb" in
      let wb := fresh "wb" in
      let tb := fresh "tb" in
      destruct (check_and_configure_api_creds b w1) as [[rb wb] tb];
      destruct wb;
      cbn [fst snd stdin http unlink_denied capture cred_file zs_name zs_session]
        in Fb, Sb, Rb, Kb, Eb, Lb, Ub, Gb, Xb;
      destruct Sb as (? & ? & ? & ? & ?); subst
  end.

Ltac use_capture_full :=
  match goal with
  | |- context [get_spotify_session_and_wait_for_credentials ?w1] =>
      let P := fresh "P" in
      let Uc := fresh "Uc" in
      pose proof (capture_spec w1) as P;
      pose proof (fun ok => capture_no_unlink w1 ok) as Uc;
      cbv zeta in P; unfold result_of, world_of, trace_of, same_outside_file in P, Uc;
      let rc := fresh "rc" in
      let wc := fresh "wc" in
      let tc := fresh "tc" in
      destruct (get_spotify_session_and_wait_for_credentials w1) as [[rc wc] tc];
      destruct wc;
      cbn [fst snd stdin http unlink_denied capture cred_file zs_name zs_session] in P, Uc;
      let Fc := fresh "Fc" in
      let Rc := fresh "Rc" in
      let Cc := fresh "Cc" in
      let Lc := fresh "Lc" in
      destruct P as (Fc & (? & ? & ? & ?) & Rc & Cc & Lc); subst
  end.

Ltac exec_main_full :=
  run_main; repeat (first [use_boot_full | use_capture_full | exec_case]; cbv beta iota).

(** ** Interrupts, end of input and exit codes *)

(** X11: Ctrl-C at any prompt ends the run with status 0, the cancellation
    being the last thing logged; this holds also after a failed
    registration. *)
Theorem ctrl_c_at_a_prompt_exits_0 w p :
  In (EvInput p (Some CtrlC)) (run_trace w) ->
  run_outcome w = Exited 0 /\
  exists t, run_trace w = t ++ [EvLog INFO LCancelled].
Proof.
  revert p. destruct w as [ins reps f den zn zsess cap]. exec_main_full.
  all: intros p I; in_trace I.
  all: try (apply Kb in I; try discriminate I; inversion I; subst).
  all: try (inversion I; subst; clear I).
  all: split; [reflexivity|].
  all: rewrite app_nil_r; eexists; reflexivity.
Qed.

Lemma ctrl_c_at_a_prompt_exits_0_witness :
  run_outcome Scene.cancel_after_failure = Exited 0 /\
  exists t, run_trace Scene.cancel_after_failure = t ++ [EvLog INFO LCancelled].
Proof.
  apply (ctrl_c_at_a_prompt_exits_0 Scene.cancel_after_failure PCleanup).
  vm_compute. tauto.
Defined.


(** X12: when the input ends at a prompt, the [EOFError] is caught nowhere:
    the run ends in a traceback, status 1. *)
Theorem end_of_input_is_not_handled w p :
  In (EvInput p None) (run_trace w) ->
  run_outcome w = Traceback EOFError /\
  exit_status (run_outcome w) = Some 1.
Proof.
  revert p. destruct w as [ins reps f den zn zsess cap]. exec_main_full.
  all: intros p I; in_trace I.
  all: try (apply Eb in I; try discriminate I; inversion I; subst).
  all: try (inversion I; subst; clear I).
  all: split; reflexivity.
Qed.

Lemma end_of_input_is_not_handled_witness :
  run_outcome Scene.input_ends = Traceback EOFError /\
  exit_status (run_outcome Scene.input_ends) = Some 1.
Proof.
  apply (end_of_input_is_not_handled Scene.input_ends PAccountName).
  vm_compute. tauto.
Defined.


(** X13: the run exits with 0 only after an accepted registration or a
    cancellation, and [sys.exit] is only ever called with 0 or 1. *)
Theorem exit_0_means_registered_or_cancelled w :
  (run_outcome w = Exited 0 ->
     In (EvLog INFO LRegistered) (run_trace w) \/
     In (EvLog INFO LCancelled) (run_trace w)) /\
  (forall c, run_outcome w = Exited c -> c = 0 \/ c = 1).
Proof.
  destruct w as [ins reps f den zn zsess cap]. exec_main_full.
  all: split; [intros E|intros c E]; try discriminate E.
  all: try (inversion E; subst; auto; fail).
  all: try (first [ left; in_solve | right; in_solve ]).
  all: try (exfalso;
            match goal with
            | H : forall e, Raise (SystemExit _) = Raise e -> _ |- _ =>
                destruct (H _ eq_refl) as [X|[X|X]]; discriminate X
            | H : _ \/ _ \/ _ \/ _ |- _ =>
                destruct H as [X|[X|[X|X]]]; discriminate X
            end).
  all: match goal with
       | H : _ \/ _ \/ _ \/ _ |- _ =>
           destruct H as [X|[X|[X|X]]]; try discriminate X; inversion X; subst;
           inversion E; auto
       end.
Qed.

Lemma exit_0_means_registered_or_cancelled_witness :
  In (EvLog INFO LRegistered) (run_trace Env.plain_run) \/
  In (EvLog INFO LCancelled) (run_trace Env.plain_run).
Proof.
  apply (proj1 (exit_0_means_registered_or_cancelled Env.plain_run)). reflexivity.
Defined.


(** X14: when the bootstrap refuses (declined, empty credentials, or a
    failed request) the run exits with status 1 without asking for the
    account name and without a POST. *)
Theorem refused_bootstrap_aborts w l m :
  In (EvLog l m) (run_trace w) ->
  boot_refusal m = true ->
  run_outcome w = Exited 1 /\
  (forall k, ~ In (EvInput PAccountName k) (run_trace w)) /\
  (forall u b t, ~ In (EvHttp POST u b t) (run_trace w)).
Proof.
  revert l m. destruct w as [ins reps f den zn zsess cap]. exec_main_full.
  all: intros l' m I R; in_trace I.
  all: try (inversion I; subst; clear I; discriminate R).
  all: try (specialize (Lb _ _ I R); discriminate Lb).
  all: try (exfalso; rewrite Forall_forall in Fc; apply Fc in I;
            destruct m; discriminate).
  all: split; [reflexivity|split; [intros k J; in_trace J|intros u b t J; in_trace J]].
Qed.

Lemma refused_bootstrap_aborts_witness :
  run_outcome Scene.declined_run = Exited 1 /\
  (forall k, ~ In (EvInput PAccountName k) (run_trace Scene.declined_run)) /\
  (forall u b t, ~ In (EvHttp POST u b t) (run_trace Scene.declined_run)).
Proof.
  apply (refused_bootstrap_aborts Scene.declined_run INFO LPleaseConfigure).
  - vm_compute. tauto.
  - reflexivity.
Defined.


(** X15: the credential file is only ever unlinked after the user answered
    y or Y to the overwrite prompt or to the cleanup prompt. *)
Theorem no_deletion_without_consent w ok :
  In (EvUnlink ok) (run_trace w) ->
  exists p s,
    (p = POverwrite \/ p = PCleanup) /\
    In (EvInput p (Some (Line s))) (run_trace w) /\
    (s = "y" \/ s = "Y").
Proof.
  revert ok. destruct w as [ins reps f den zn zsess cap]. exec_main_full.
  all: intros ok I; in_trace I.
  all: try (exfalso; revert I; apply Uc; reflexivity).
  all: first
    [ exists POverwrite; eexists; split; [left; reflexivity|];
      split; [in_solve|]; apply lower_is_y; apply String.eqb_eq; assumption
    | exists PCleanup; eexists; split; [right; reflexivity|];
      split; [in_solve|]; apply lower_is_y; apply String.eqb_eq; assumption ].
Qed.

Lemma no_deletion_without_consent_witness :
  exists p s,
    (p = POverwrite \/ p = PCleanup) /\
    In (EvInput p (Some (Line s))) (run_trace Scene.deleting) /\
    (s = "y" \/ s = "Y").
Proof.
  apply (no_deletion_without_consent Scene.deleting true).
  vm_compute. tauto.
Defined.


(** ** The credential file and the requests of a run *)

Lemma yes_is_y (s : string) : (Py.lower s =? "y")%string = true -> s = "y" \/ s = "Y".
Proof. intros E. apply lower_is_y. apply String.eqb_eq. exact E. Qed.

(** X16: a credential file that exists at the start is still there,
    unchanged, at the end unless the user answered y or Y to the overwrite
    or cleanup prompt; once its deletion is logged, it is gone. *)
Theorem credential_file_at_the_end w :
  (forall f,
     cred_file w = Some f ->
     (forall p s, In (EvInput p (Some (Line s))) (run_trace w) ->
                  p = POverwrite \/ p = PCleanup -> s <> "y" /\ s <> "Y") ->
     cred_file (run_world w) = Some f) /\
  (In (EvLog INFO LCredentialsDeleted) (run_trace w) ->
   cred_file (run_world w) = None).
Proof.
  destruct w as [ins reps f den zn zsess cap]. cbn [cred_file]. exec_main_full.
  all: split; [intros f' E N|intros I; in_trace I; reflexivity].
  all: try discriminate E.
  all: try exact E.
  all: exfalso.
  all: match goal with
       | H : (Py.lower ?s =? "y")%string = true |- _ =>
           apply yes_is_y in H;
           first [ assert (C : s <> "y" /\ s <> "Y")
                     by (apply (N POverwrite); [in_solve|left; reflexivity])
                 | assert (C : s <> "y" /\ s <> "Y")
                     by (apply (N PCleanup); [in_solve|right; reflexivity]) ];
           tauto
       end.
Qed.

Lemma credential_file_at_the_end_witness :
  cred_file (run_world Scene.deleting) = None.
Proof.
  apply (proj2 (credential_file_at_the_end Scene.deleting)).
  vm_compute. tauto.
Defined.


(** X17: when the registration request fails, the failure is one of the
    requests library, its status and raw body text are logged when it
    carries a response, the cleanup prompt is still issued, and the exit
    status is 1 if that prompt is answered. *)
Theorem failed_registration_exit w e :
  In (EvLog ERROR (LFailedToCall e)) (run_trace w) ->
  is_RequestException e = true /\
  (forall r, e = HTTPError r ->
     In (EvLog ERROR (LResponseStatus (status_code r))) (run_trace w) /\
     In (EvLog ERROR (LResponseBodyText (text r))) (run_trace w)) /\
  exists k,
    In (EvInput PCleanup k) (run_trace w) /\
    run_outcome w = match k with
                    | Some (Line _) => Exited 1
                    | Some CtrlC => Exited 0
                    | None => Traceback EOFError
                    end.
Proof.
  revert e. destruct w as [ins reps f den zn zsess cap]. exec_main_full.
  all: intros e' I; in_trace I.
  all: inversion I; subst; clear I.
  all: split; [reflexivity|split].
  all: try (intros r' E; try discriminate E; inversion E; subst; clear E;
            split; in_solve).
  all: eexists; split; [in_solve|reflexivity].
Qed.

Lemma failed_registration_exit_witness :
  is_RequestException (HTTPError (mkResponse 500 "ok" None)) = true /\
  (forall r, HTTPError (mkResponse 500 "ok" None) = HTTPError r ->
     In (EvLog ERROR (LResponseStatus (status_code r))) (run_trace Env.rejected_run) /\
     In (EvLog ERROR (LResponseBodyText (text r))) (run_trace Env.rejected_run)) /\
  exists k,
    In (EvInput PCleanup k) (run_trace Env.rejected_run) /\
    run_outcome Env.rejected_run = match k with
                                   | Some (Line _) => Exited 1
                                   | Some CtrlC => Exited 0
                                   | None => Traceback EOFError
                                   end.
Proof.
  apply (failed_registration_exit Env.rejected_run).
  vm_compute. tauto.
Defined.


Lemma capture_no_request e : capture_event e = true -> is_request e = false.
Proof. destruct e; try reflexivity; discriminate. Qed.

Ltac count_requests :=
  repeat first
    [ progress cbn [filter is_request is_http app length]
    | rewrite filter_app
    | rewrite length_app
    | match goal with
      | F : Forall (fun e => capture_event e = true) ?t |- context [filter is_request ?t] =>
          rewrite (filter_none is_request capture_event t capture_no_request F)
      | F : Forall (fun e => capture_event e = true) ?t |- context [filter (is_http POST) ?t] =>
          rewrite (filter_none (is_http POST) capture_event t capture_no_post F)
      | F : Forall (fun e => boot_event e = true) ?t |- context [filter (is_http POST) ?t] =>
          rewrite (filter_none (is_http POST) boot_event t boot_no_post F)
      end ].

(** X18: nothing is retried: a run makes at most three requests and at
    most one POST; the POST has no timeout and is only made in a run that
    made the GET of the configuration. *)
Theorem every_request_is_made_once w :
  (length (filter is_request (run_trace w)) <= 3)%nat /\
  (length (filter (is_http POST) (run_trace w)) <= 1)%nat /\
  (forall u b t, In (EvHttp POST u b t) (run_trace w) ->
     t = None /\ exists g, In (EvHttp GET g None (Some 10)) (run_trace w)).
Proof.
  destruct w as [ins reps f den zn zsess cap]. exec_main_full.
  all: split; [|split].
  all: try (count_requests; destruct Gb as [_ Gb]; lia).
  all: try (count_requests; lia).
  all: intros u b t I; in_trace I.
  all: try (apply Ub in I; destruct I as (_ & _ & I); congruence).
  all: inversion I; subst; clear I.
  all: split; [reflexivity|].
  all: destruct Gb as [Gb _]; eexists.
  all: cbn [app]; repeat first [ apply in_cons | (apply in_or_app; left; exact Gb)
                               | (apply in_or_app; left) ].
Qed.

Lemma every_request_is_made_once_witness :
  None = (None : option Z) /\
  exists g, In (EvHttp GET g None (Some 10)) (run_trace Env.plain_run).
Proof.
  apply (proj2 (proj2 (every_request_is_made_once Env.plain_run))
           "http://localhost:7171/api/credentials/spotify/me"
           (Some (registration_payload "US" Env.blob))).
  vm_compute. tauto.
Defined.


(** X19: every GET goes to the configuration URL built from the base URL as
    entered (the default when empty, the scheme added when missing), with a
    timeout of 10. *)
Theorem config_url_comes_from_the_base w u b t :
  In (EvHttp GET u b t) (run_trace w) ->
  exists base,
    In (EvInput PBaseUrl (Some (Line base))) (run_trace w) /\
    u = api_config_url
          (normalize_base_url (if Py.truthy_str base then base else default_base_url)) /\
    t = Some 10.
Proof.
  revert u b t. destruct w as [ins reps f den zn zsess cap]. exec_main_full.
  all: intros u b t I; in_trace I.
  all: try (inversion I; fail).
  all: apply Ub in I; destruct I as (U & T & _); subst.
  all: eexists; split; [in_solve|split; [|reflexivity]].
  all: match goal with H : Py.truthy_str _ = _ |- _ => rewrite H end; reflexivity.
Qed.

Lemma config_url_comes_from_the_base_witness :
  exists base,
    In (EvInput PBaseUrl (Some (Line base))) (run_trace Env.plain_run) /\
    "http://localhost:7171/api/credentials/spotify_api_config" =
      api_config_url
        (normalize_base_url (if Py.truthy_str base then base else default_base_url)) /\
    Some 10 = Some 10.
Proof.
  apply (config_url_comes_from_the_base Env.plain_run _ None).
  vm_compute. tauto.
Defined.


(** ** The URLs *)


Lemma rstrip_slash_idem (s : string) :
  Py.rstrip_slash (Py.rstrip_slash s) = Py.rstrip_slash s.
Proof.
  induction s as [|c r IH]; [reflexivity|].
  cbn [Py.rstrip_slash].
  destruct (Py.rstrip_slash r) as [|c' r'] eqn:E.
  - destruct (Ascii.eqb c "/") eqn:C; [reflexivity|].
    cbn [Py.rstrip_slash]. rewrite C. reflexivity.
  - cbn [Py.rstrip_slash] in *. rewrite IH. reflexivity.
Qed.



Lemma prefix_app (p s : string) : String.prefix p (p ++ s) = true.
Proof.
  induction p as [|c p IH]; cbn; [destruct s; reflexivity|].
  destruct (ascii_dec c c); [assumption|congruence].
Qed.

Lemma normalize_has_scheme (b : string) :
  Py.startswith "http://" (normalize_base_url b) || Py.startswith "https://" (normalize_base_url b) = true.
Proof.
  unfold normalize_base_url.
  destruct (Py.startswith "http://" b || Py.startswith "https://" b) eqn:E; [assumption|].
  unfold Py.startswith. rewrite prefix_app. reflexivity.
Qed.

Lemma normalize_idem (b : string) :
  normalize_base_url (normalize_base_url b) = normalize_base_url b.
Proof.
  unfold normalize_base_url at 1. rewrite normalize_has_scheme. reflexivity.
Qed.


(** X21: after lines 131-132 the base URL starts with http:// or https://;
    a URL that already does is left as it is, so the step is idempotent. *)
Theorem base_url_gets_a_scheme (b : string) :
  Py.startswith "http://" (normalize_base_url b)
    || Py.startswith "https://" (normalize_base_url b) = true /\
  normalize_base_url (normalize_base_url b) = normalize_base_url b /\
  (Py.startswith "http://" b || Py.startswith "https://" b = true ->
   normalize_base_url b = b).
Proof.
  split; [apply normalize_has_scheme|split; [apply normalize_idem|]].
  intros H. unfold normalize_base_url. rewrite H. reflexivity.
Qed.

Lemma base_url_gets_a_scheme_witness :
  normalize_base_url "https://spotizerr.lan" = "https://spotizerr.lan".
Proof.
  apply (proj2 (proj2 (base_url_gets_a_scheme "https://spotizerr.lan"))).
  reflexivity.
Defined.
